(** * WM8960 register map: the Left Input Volume register (R0)

    Shallow embedding of [src/wm8960.h].  The header holds no functions:
    it is a table of preprocessor constants.  Each [#define] becomes a
    definition of the same name whose body is the macro's replacement
    text, read with C's rules for [unsigned int] expressions. *)

From Stdlib Require Import ZArith QArith Lia List Bool.
Import ListNotations.
Local Open Scope Z_scope.

(** ** C [unsigned int] expressions

    A literal with the suffix [u] that fits [unsigned int] has that type
    and its own value.  The width [w] of [unsigned int] is left to the
    target; ISO C promises at least 16 bits.  Results of [<<] and [~]
    are reduced modulo [2 ^ w]. *)

Module UInt.

Definition wrap (w x : Z) : Z := x mod 2 ^ w.

(** [x << n] on an [unsigned int] left operand. *)
Definition shl (w x n : Z) : Z := wrap w (Z.shiftl x n).

(** [~x] on an [unsigned int] operand. *)
Definition lnot (w x : Z) : Z := wrap w (Z.lnot x).

(** [x & y]: no bit above the operands' can appear, nothing to reduce. *)
Definition land (x y : Z) : Z := Z.land x y.

(** [x | y], likewise. *)
Definition lor (x y : Z) : Z := Z.lor x y.

(** [x >> n] on an [unsigned int] left operand: zeros come in, nothing
    to reduce. *)
Definition shr (x n : Z) : Z := Z.shiftr x n.

End UInt.

(** ** What the header's comments state

    The doc comment above the first group gives the register's address,
    the bit position of every field, the default value and the gain
    scale.  They are kept apart from the constants, to be compared with
    them. *)

(** Fields: IPVU, LINMUTE, LIZC, LINVOL. *)
Inductive R0_field : Type := IPVU | LINMUTE | LIZC | LINVOL.

Definition R0_fields : list R0_field := [IPVU; LINMUTE; LIZC; LINVOL].


Module R0Doc.

(** [@name WM8660_R0_LEFT_IN_VOL (0x00)] *)
Definition address : Z := 0x00.

(** [BIT 8 IPVU], [BIT 7 LINMUTE], [BIT 6 LIZC], [BIT [5:0] LINVOL]:
    the highest and the lowest bit of each field. *)
Definition field_bits (f : R0_field) : Z * Z :=
  match f with
  | IPVU => (8, 8)
  | LINMUTE => (7, 7)
  | LIZC => (6, 6)
  | LINVOL => (5, 0)
  end.

(** The mask with exactly the bits [hi] down to [lo] set. *)
Definition bits_mask (hi lo : Z) : Z := Z.shiftl (Z.ones (hi - lo + 1)) lo.

Definition field_mask (f : R0_field) : Z :=
  bits_mask (fst (field_bits f)) (snd (field_bits f)).

Definition field_shift (f : R0_field) : Z := snd (field_bits f).



(** [0.75dB steps] *)
Definition step_dB : Q := 0.75.

End R0Doc.

(** Decibels between two gain codes, at the documented step. *)
Definition LINVOL_span_dB (lo hi : Z) : Q := inject_Z (hi - lo) * R0Doc.step_dB.

(** Bit [n], and no other, is set in [c]. *)
Definition occupies_exactly_bit (c n : Z) : Prop :=
  forall i : Z, Z.testbit c i = (i =? n).

(** The bits [hi] down to [lo], and no other, are set in [c]. *)
Definition covers_exactly_bits (c hi lo : Z) : Prop :=
  forall i : Z, Z.testbit c i = (lo <=? i) && (i <=? hi).

(** ** The header *)

Section Header.

(** Width of [unsigned int] on the target. *)
Variable uint_bits : Z.
Hypothesis uint_bits_min : 16 <= uint_bits.

(** First group, [WM8960_R0_*]. *)

(* #define WM8960_R0_ADDR            0x00u *)
Definition WM8960_R0_ADDR : Z := 0x00.
(* #define WM8960_R0_IPVU            (1u << 8) *)
Definition WM8960_R0_IPVU : Z := UInt.shl uint_bits 1 8.
(* #define WM8960_R0_LINMUTE         (1u << 7) *)
Definition WM8960_R0_LINMUTE : Z := UInt.shl uint_bits 1 7.
(* #define WM8960_R0_LIZC            (1u << 6) *)
Definition WM8960_R0_LIZC : Z := UInt.shl uint_bits 1 6.
(* #define WM8960_R0_LINVOL_MASK     0x3Fu *)
Definition WM8960_R0_LINVOL_MASK : Z := 0x3F.
(* #define WM8960_R0_LINVOL_SHIFT    0 *)
Definition WM8960_R0_LINVOL_SHIFT : Z := 0.
(* #define WM8960_R0_LINVOL_0DB      0x17u *)
Definition WM8960_R0_LINVOL_0DB : Z := 0x17.
(* #define WM8960_R0_LINVOL_MAX_30DB 0x3Fu *)
Definition WM8960_R0_LINVOL_MAX_30DB : Z := 0x3F.

(** Second group, [WM8960_LEFT_RIGHT_IN_VOL_*]. *)

(* #define WM8960_LEFT_RIGHT_IN_VOL_IPVU           0x100u *)
Definition WM8960_LEFT_RIGHT_IN_VOL_IPVU : Z := 0x100.
(* #define WM8960_LEFT_RIGHT_IN_VOL_INMUTE         0x080u *)
Definition WM8960_LEFT_RIGHT_IN_VOL_INMUTE : Z := 0x080.
(* #define WM8960_LEFT_RIGHT_IN_VOL_IZC_ZC         0x040u *)
Definition WM8960_LEFT_RIGHT_IN_VOL_IZC_ZC : Z := 0x040.
(* #define WM8960_LEFT_RIGHT_IN_VOL_INVOL_0dB      0x017u *)
Definition WM8960_LEFT_RIGHT_IN_VOL_INVOL_0dB : Z := 0x017.
(* #define WM8960_LEFT_RIGHT_IN_VOL_INVOL_30dB     0x03Fu *)
Definition WM8960_LEFT_RIGHT_IN_VOL_INVOL_30dB : Z := 0x03F.

(** The mask constant the first group gives each field. *)
Definition R0_field_mask (f : R0_field) : Z :=
  match f with
  | IPVU => WM8960_R0_IPVU
  | LINMUTE => WM8960_R0_LINMUTE
  | LIZC => WM8960_R0_LIZC
  | LINVOL => WM8960_R0_LINVOL_MASK
  end.

(** The named gain codes of the LINVOL field, both groups. *)
Definition R0_LINVOL_values : list Z :=
  [ WM8960_R0_LINVOL_0DB; WM8960_R0_LINVOL_MAX_30DB;
    WM8960_LEFT_RIGHT_IN_VOL_INVOL_0dB; WM8960_LEFT_RIGHT_IN_VOL_INVOL_30dB ].

(** [(value << WM8960_R0_LINVOL_SHIFT) & ~WM8960_R0_LINVOL_MASK] *)
Definition LINVOL_outside_mask (value : Z) : Z :=
  UInt.land (UInt.shl uint_bits value WM8960_R0_LINVOL_SHIFT)
            (UInt.lnot uint_bits WM8960_R0_LINVOL_MASK).

(** What the mask and shift pair of a field is for: a gain code put
    into a register value,
    [flags | (code << WM8960_R0_LINVOL_SHIFT)] *)
Definition R0_put_LINVOL (flags code : Z) : Z :=
  UInt.lor flags (UInt.shl uint_bits code WM8960_R0_LINVOL_SHIFT).

(** and read back,
    [(word & WM8960_R0_LINVOL_MASK) >> WM8960_R0_LINVOL_SHIFT] *)
Definition R0_get_LINVOL (word : Z) : Z :=
  UInt.shr (UInt.land word WM8960_R0_LINVOL_MASK) WM8960_R0_LINVOL_SHIFT.

(** [IPVU | LINMUTE | LIZC | LINVOL_MASK], every field mask of the
    register OR-ed together. *)
Definition R0_all_fields_mask : Z :=
  fold_right (fun f acc => UInt.lor (R0_field_mask f) acc) 0 R0_fields.

(** *** Unsigned arithmetic at the sizes the header uses *)

Lemma uint_modulus_lower : 2 ^ 16 <= 2 ^ uint_bits.
Proof. apply Z.pow_le_mono_r; lia. Qed.

Lemma UInt_wrap_small (x : Z) : 0 <= x < 2 ^ 16 -> UInt.wrap uint_bits x = x.
Proof.
  intros Hx. unfold UInt.wrap. apply Z.mod_small.
  pose proof uint_modulus_lower. lia.
Qed.

Lemma UInt_shl_one (n : Z) : 0 <= n < 16 -> UInt.shl uint_bits 1 n = 2 ^ n.
Proof.
  intros Hn. unfold UInt.shl. rewrite Z.shiftl_1_l.
  apply UInt_wrap_small. split.
  - apply Z.pow_nonneg; lia.
  - apply Z.pow_lt_mono_r; lia.
Qed.

Lemma UInt_shl_zero (x : Z) : 0 <= x < 2 ^ 16 -> UInt.shl uint_bits x 0 = x.
Proof.
  intros Hx. unfold UInt.shl. rewrite Z.shiftl_0_r. now apply UInt_wrap_small.
Qed.

Lemma UInt_lnot_value (x : Z) :
  0 <= x < 2 ^ 16 -> UInt.lnot uint_bits x = 2 ^ uint_bits - 1 - x.
Proof.
  intros Hx. unfold UInt.lnot, UInt.wrap, Z.lnot.
  pose proof uint_modulus_lower.
  replace (Z.pred (- x)) with (2 ^ uint_bits - 1 - x + (-1) * 2 ^ uint_bits) by lia.
  rewrite Z.mod_add by lia. apply Z.mod_small. lia.
Qed.

Lemma UInt_land_lnot (v m : Z) :
  Z.land v (Z.lnot m) = 0 -> UInt.land v (UInt.lnot uint_bits m) = 0.
Proof.
  intros H. unfold UInt.land, UInt.lnot, UInt.wrap.
  rewrite <- Z.land_ones by lia.
  now rewrite Z.land_assoc, H, Z.land_0_l.
Qed.

Lemma WM8960_R0_IPVU_value : WM8960_R0_IPVU = 256.
Proof. unfold WM8960_R0_IPVU. now rewrite UInt_shl_one by lia. Qed.

Lemma WM8960_R0_LINMUTE_value : WM8960_R0_LINMUTE = 128.
Proof. unfold WM8960_R0_LINMUTE. now rewrite UInt_shl_one by lia. Qed.

Lemma WM8960_R0_LIZC_value : WM8960_R0_LIZC = 64.
Proof. unfold WM8960_R0_LIZC. now rewrite UInt_shl_one by lia. Qed.

(** *** Bit positions *)

Lemma pow2_occupies_exactly_bit (n : Z) : 0 <= n -> occupies_exactly_bit (2 ^ n) n.
Proof.
  intros Hn i. rewrite Z.pow2_bits_eqb by assumption. apply Z.eqb_sym.
Qed.

Lemma bits_mask_covers (hi lo : Z) :
  0 <= lo <= hi -> covers_exactly_bits (R0Doc.bits_mask hi lo) hi lo.
Proof.
  intros Hr i. unfold R0Doc.bits_mask.
  destruct (Z.ltb_spec i 0) as [Hneg | Hpos].
  - rewrite Z.testbit_neg_r by assumption.
    symmetry. apply andb_false_intro1. apply Z.leb_gt. lia.
  - rewrite Z.shiftl_spec by assumption.
    rewrite Z.testbit_ones by lia.
    destruct (Z.leb_spec lo i), (Z.leb_spec 0 (i - lo)),
      (Z.ltb_spec (i - lo) (hi - lo + 1)), (Z.leb_spec i hi);
      simpl; try reflexivity; lia.
Qed.

Lemma bits_mask_single (n : Z) : 0 <= n -> R0Doc.bits_mask n n = 2 ^ n.
Proof.
  intros Hn. unfold R0Doc.bits_mask.
  replace (n - n + 1) with 1 by lia.
  change (Z.ones 1) with 1. apply Z.shiftl_1_l.
Qed.

Lemma R0_field_mask_value (f : R0_field) :
  R0_field_mask f =
  match f with IPVU => 0x100 | LINMUTE => 0x080 | LIZC => 0x040 | LINVOL => 0x03F end.
Proof.
  destruct f; simpl.
  - apply WM8960_R0_IPVU_value.
  - apply WM8960_R0_LINMUTE_value.
  - apply WM8960_R0_LIZC_value.
  - reflexivity.
Qed.

(** Every gain code of at most six bits stays inside the LINVOL mask. *)
Lemma LINVOL_code_inside_mask (v : Z) :
  0 <= v <= 0x3F -> LINVOL_outside_mask v = 0.
Proof.
  intros Hv. unfold LINVOL_outside_mask, WM8960_R0_LINVOL_SHIFT.
  rewrite UInt_shl_zero by lia.
  apply UInt_land_lnot. apply Z.bits_inj'. intros n Hn.
  rewrite Z.land_spec, Z.lnot_spec, Z.bits_0 by assumption.
  destruct (Z.ltb_spec n 6) as [Hlow | Hhigh].
  - change WM8960_R0_LINVOL_MASK with (Z.ones 6).
    rewrite Z.ones_spec_low by lia. apply andb_false_r.
  - assert (Hbit : Z.testbit v n = false).
    { destruct (Z.eq_dec v 0) as [-> | Hnz]; [apply Z.bits_0 |].
      apply Z.bits_above_log2; [lia |].
      assert (Z.log2 v < 6) by (apply Z.log2_lt_pow2; simpl; lia). lia. }
    now rewrite Hbit.
Qed.

(** ** The properties of the register map *)

(** C1: any two distinct fields of the Left Input Volume register (IPVU,
    LINMUTE, LIZC, LINVOL) have non-zero masks whose bitwise AND is zero. *)
Theorem R0_field_masks_nonzero_disjoint (f g : R0_field) :
  f <> g ->
  R0_field_mask f <> 0 /\ R0_field_mask g <> 0 /\
  UInt.land (R0_field_mask f) (R0_field_mask g) = 0.
Proof.
  intros Hfg. rewrite !R0_field_mask_value.
  destruct f, g; try (exfalso; apply Hfg; reflexivity);
    repeat split; try discriminate; reflexivity.
Qed.

(** C2: the 0 dB gain code is 0x17, the maximum gain code is 0x3F, and
    the steps between them, at 0.75 dB each, make exactly 30 dB as a
    rational number. *)
Theorem LINVOL_0dB_to_max_spans_30dB :
  WM8960_R0_LINVOL_0DB = 0x17 /\
  WM8960_R0_LINVOL_MAX_30DB = 0x3F /\
  WM8960_LEFT_RIGHT_IN_VOL_INVOL_0dB = 0x17 /\
  WM8960_LEFT_RIGHT_IN_VOL_INVOL_30dB = 0x3F /\
  R0Doc.step_dB == 3 # 4 /\
  inject_Z (0x3F - 0x17) * 0.75 == 30 /\
  LINVOL_span_dB WM8960_R0_LINVOL_0DB WM8960_R0_LINVOL_MAX_30DB == 30 /\
  LINVOL_span_dB WM8960_LEFT_RIGHT_IN_VOL_INVOL_0dB
                 WM8960_LEFT_RIGHT_IN_VOL_INVOL_30dB == 30.
Proof.
  repeat split; reflexivity.
Qed.

(** A flag constant of value [2 ^ n]: it is [1 << n] and sits on bit [n]. *)
Ltac flag_bit Hvalue :=
  rewrite ?Hvalue; repeat split;
  try reflexivity;
  match goal with
  | |- occupies_exactly_bit _ ?n =>
      apply (pow2_occupies_exactly_bit n); discriminate
  end.

(** C3: the IPVU (volume update latch) constant is exactly bit 8, that
    is 1 shifted left by 8, 0x100, under both of its names. *)
Theorem IPVU_is_bit_8 :
  WM8960_R0_IPVU = Z.shiftl 1 8 /\
  WM8960_R0_IPVU = 0x100 /\
  occupies_exactly_bit WM8960_R0_IPVU 8 /\
  WM8960_LEFT_RIGHT_IN_VOL_IPVU = Z.shiftl 1 8 /\
  WM8960_LEFT_RIGHT_IN_VOL_IPVU = 0x100 /\
  occupies_exactly_bit WM8960_LEFT_RIGHT_IN_VOL_IPVU 8.
Proof. flag_bit WM8960_R0_IPVU_value. Qed.

(** C4: the LINMUTE (mute) constant is exactly bit 7, that is 1 shifted
    left by 7, 0x080, under both of its names. *)
Theorem LINMUTE_is_bit_7 :
  WM8960_R0_LINMUTE = Z.shiftl 1 7 /\
  WM8960_R0_LINMUTE = 0x080 /\
  occupies_exactly_bit WM8960_R0_LINMUTE 7 /\
  WM8960_LEFT_RIGHT_IN_VOL_INMUTE = Z.shiftl 1 7 /\
  WM8960_LEFT_RIGHT_IN_VOL_INMUTE = 0x080 /\
  occupies_exactly_bit WM8960_LEFT_RIGHT_IN_VOL_INMUTE 7.
Proof. flag_bit WM8960_R0_LINMUTE_value. Qed.

(** C5: the LIZC (zero-cross enable) constant is exactly bit 6, that is
    1 shifted left by 6, 0x040, under both of its names. *)
Theorem LIZC_is_bit_6 :
  WM8960_R0_LIZC = Z.shiftl 1 6 /\
  WM8960_R0_LIZC = 0x040 /\
  occupies_exactly_bit WM8960_R0_LIZC 6 /\
  WM8960_LEFT_RIGHT_IN_VOL_IZC_ZC = Z.shiftl 1 6 /\
  WM8960_LEFT_RIGHT_IN_VOL_IZC_ZC = 0x040 /\
  occupies_exactly_bit WM8960_LEFT_RIGHT_IN_VOL_IZC_ZC 6.
Proof. flag_bit WM8960_R0_LIZC_value. Qed.

(** C6: the LINVOL (gain code) mask is 0x3F, its shift is 0, and the
    mask covers exactly the bits 5 down to 0. *)
Theorem LINVOL_mask_is_bits_5_0 :
  WM8960_R0_LINVOL_MASK = 0x3F /\
  WM8960_R0_LINVOL_SHIFT = 0 /\
  covers_exactly_bits WM8960_R0_LINVOL_MASK 5 0.
Proof.
  repeat split.
  change WM8960_R0_LINVOL_MASK with (R0Doc.bits_mask 5 0).
  apply bits_mask_covers. lia.
Qed.

(** C7: the register address is 0x00, and every field constant has the
    value rebuilt from the bit positions of the header's comment (bit 8,
    bit 7, bit 6, bits 5:0). *)
Theorem R0_constants_match_documented_bits :
  WM8960_R0_ADDR = 0x00 /\
  WM8960_R0_ADDR = R0Doc.address /\
  (forall f : R0_field, R0_field_mask f = R0Doc.field_mask f) /\
  WM8960_R0_LINVOL_SHIFT = R0Doc.field_shift LINVOL /\
  WM8960_LEFT_RIGHT_IN_VOL_IPVU = R0Doc.field_mask IPVU /\
  WM8960_LEFT_RIGHT_IN_VOL_INMUTE = R0Doc.field_mask LINMUTE /\
  WM8960_LEFT_RIGHT_IN_VOL_IZC_ZC = R0Doc.field_mask LIZC.
Proof.
  repeat split.
  intros f. rewrite R0_field_mask_value. now destruct f.
Qed.

(** C8: each named LINVOL gain code (0 dB, 0x17, and maximum, 0x3F),
    shifted left by the LINVOL shift, has no bit outside the LINVOL
    mask: [(value << SHIFT) & ~MASK] is 0. *)
Theorem LINVOL_values_fit_mask (value : Z) :
  In value R0_LINVOL_values -> LINVOL_outside_mask value = 0.
Proof.
  intros Hin. apply LINVOL_code_inside_mask.
  unfold R0_LINVOL_values in Hin. simpl in Hin.
  unfold WM8960_R0_LINVOL_0DB, WM8960_R0_LINVOL_MAX_30DB,
    WM8960_LEFT_RIGHT_IN_VOL_INVOL_0dB, WM8960_LEFT_RIGHT_IN_VOL_INVOL_30dB in Hin.
  lia.
Qed.


(** C10: the two groups of names give the same value field for field:
    IPVU, the mute bit, the zero-cross bit, the 0 dB code and the
    maximum code. *)
Theorem naming_groups_agree :
  WM8960_R0_IPVU = WM8960_LEFT_RIGHT_IN_VOL_IPVU /\
  WM8960_R0_LINMUTE = WM8960_LEFT_RIGHT_IN_VOL_INMUTE /\
  WM8960_R0_LIZC = WM8960_LEFT_RIGHT_IN_VOL_IZC_ZC /\
  WM8960_R0_LINVOL_0DB = WM8960_LEFT_RIGHT_IN_VOL_INVOL_0dB /\
  WM8960_R0_LINVOL_MAX_30DB = WM8960_LEFT_RIGHT_IN_VOL_INVOL_30dB.
Proof.
  rewrite WM8960_R0_IPVU_value, WM8960_R0_LINMUTE_value, WM8960_R0_LIZC_value.
  repeat split.
Qed.

(** ** The fields together *)

Lemma six_bit_code_high_bits (v n : Z) :
  0 <= v <= 0x3F -> 6 <= n -> Z.testbit v n = false.
Proof.
  intros Hv Hn.
  destruct (Z.eq_dec v 0) as [-> | Hnz]; [apply Z.bits_0 |].
  apply Z.bits_above_log2; [lia |].
  assert (Z.log2 v < 6) by (apply Z.log2_lt_pow2; simpl; lia). lia.
Qed.

Lemma R0_field_mask_testbit (f : R0_field) (i : Z) :
  Z.testbit (R0_field_mask f) i =
  (snd (R0Doc.field_bits f) <=? i) && (i <=? fst (R0Doc.field_bits f)).
Proof.
  rewrite R0_field_mask_value.
  destruct f; simpl fst; simpl snd.
  - change 0x100 with (R0Doc.bits_mask 8 8). apply bits_mask_covers; lia.
  - change 0x080 with (R0Doc.bits_mask 7 7). apply bits_mask_covers; lia.
  - change 0x040 with (R0Doc.bits_mask 6 6). apply bits_mask_covers; lia.
  - change 0x03F with (R0Doc.bits_mask 5 0). apply bits_mask_covers; lia.
Qed.

Lemma R0_flag_mask_testbit (f : R0_field) (i : Z) :
  f <> LINVOL -> Z.testbit (R0_field_mask f) i = true -> 6 <= i.
Proof.
  intros Hf. rewrite R0_field_mask_testbit.
  destruct f; simpl; try (exfalso; apply Hf; reflexivity);
    intros H; apply andb_prop in H; destruct H as [H _];
    apply Z.leb_le in H; lia.
Qed.

(** X1: the four fields tile the nine bits of the register.  Bit [i]
    lies in some field exactly when [0 <= i <= 8], a bit never lies in
    two fields, and all masks OR-ed together make 0x1FF. *)
Theorem R0_fields_tile_nine_bits :
  R0_all_fields_mask = 0x1FF /\
  (forall i : Z,
      (exists f : R0_field, Z.testbit (R0_field_mask f) i = true) <-> 0 <= i <= 8) /\
  (forall (i : Z) (f g : R0_field),
      Z.testbit (R0_field_mask f) i = true ->
      Z.testbit (R0_field_mask g) i = true -> f = g).
Proof.
  split; [| split].
  - unfold R0_all_fields_mask, R0_fields. cbn [fold_right R0_field_mask].
    now rewrite WM8960_R0_IPVU_value, WM8960_R0_LINMUTE_value,
      WM8960_R0_LIZC_value.
  - intros i. split.
    + intros [f Hf]. rewrite R0_field_mask_testbit in Hf.
      apply andb_prop in Hf. destruct Hf as [Hlo Hhi].
      apply Z.leb_le in Hlo, Hhi. destruct f; simpl in Hlo, Hhi; lia.
    + intros Hi.
      assert (Hcase : i <= 5 \/ i = 6 \/ i = 7 \/ i = 8) by lia.
      destruct Hcase as [H | [H | [H | H]]];
        [exists LINVOL | exists LIZC | exists LINMUTE | exists IPVU];
        rewrite R0_field_mask_testbit; simpl;
        apply andb_true_intro; split; apply Z.leb_le; lia.
  - intros i f g Hf Hg. rewrite R0_field_mask_testbit in Hf, Hg.
    apply andb_prop in Hf, Hg.
    destruct Hf as [Hf1 Hf2], Hg as [Hg1 Hg2].
    apply Z.leb_le in Hf1, Hf2, Hg1, Hg2.
    destruct f, g; simpl in *; try reflexivity; lia.
Qed.

(** X2: on an [unsigned int] value, the test [(value << SHIFT) & ~MASK]
    is 0 exactly for the codes up to the maximum gain code. *)
Theorem LINVOL_mask_test_accepts_up_to_max (value : Z) :
  0 <= value < 2 ^ uint_bits ->
  (LINVOL_outside_mask value = 0 <-> value <= WM8960_R0_LINVOL_MAX_30DB).
Proof.
  intros Hv. unfold WM8960_R0_LINVOL_MAX_30DB. split.
  - intros Hzero.
    destruct (Z.le_gt_cases value 0x3F) as [Hle | Hgt]; [exact Hle | exfalso].
    assert (Hpos : 0 < value) by lia.
    pose proof (Z.log2_spec value Hpos) as [Hlog_lo Hlog_hi].
    assert (Hn6 : 6 <= Z.log2 value).
    { apply Z.log2_le_pow2; [assumption | simpl; lia]. }
    assert (Hnw : Z.log2 value < uint_bits).
    { apply Z.log2_lt_pow2; lia. }
    assert (Hbit : Z.testbit (LINVOL_outside_mask value) (Z.log2 value) = true).
    { unfold LINVOL_outside_mask, UInt.land, UInt.shl, UInt.lnot, UInt.wrap,
        WM8960_R0_LINVOL_SHIFT.
      rewrite Z.shiftl_0_r, (Z.mod_small value) by assumption.
      rewrite Z.land_spec, Z.bit_log2 by assumption.
      rewrite Z.mod_pow2_bits_low by assumption.
      rewrite Z.lnot_spec by lia.
      change WM8960_R0_LINVOL_MASK with (Z.ones 6).
      now rewrite Z.ones_spec_high by lia. }
    rewrite Hzero, Z.bits_0 in Hbit. discriminate.
  - intros Hle. apply LINVOL_code_inside_mask. lia.
Qed.

(** X3: a gain code that fits, OR-ed into a register value whose LINVOL
    bits are clear, is read back by mask and shift, and leaves the
    value's answer to each flag constant as it was. *)
Theorem R0_put_get_LINVOL (flags code : Z) :
  UInt.land flags WM8960_R0_LINVOL_MASK = 0 ->
  0 <= code <= WM8960_R0_LINVOL_MAX_30DB ->
  R0_get_LINVOL (R0_put_LINVOL flags code) = code /\
  (forall f : R0_field, f <> LINVOL ->
     UInt.land (R0_put_LINVOL flags code) (R0_field_mask f) =
     UInt.land flags (R0_field_mask f)).
Proof.
  unfold WM8960_R0_LINVOL_MAX_30DB. intros Hflags Hcode.
  unfold R0_get_LINVOL, R0_put_LINVOL, UInt.shr, UInt.lor, UInt.land,
    WM8960_R0_LINVOL_SHIFT in *.
  rewrite UInt_shl_zero by lia. split.
  - rewrite Z.shiftr_0_r, Z.land_lor_distr_l, Hflags, Z.lor_0_l.
    change WM8960_R0_LINVOL_MASK with (Z.ones 6).
    rewrite Z.land_ones by lia. apply Z.mod_small. simpl. lia.
  - intros f Hf. rewrite Z.land_lor_distr_l.
    assert (Hclear : Z.land code (R0_field_mask f) = 0).
    { apply Z.bits_inj'. intros n Hn.
      rewrite Z.land_spec, Z.bits_0.
      destruct (Z.testbit (R0_field_mask f) n) eqn:Hbit;
        [| apply andb_false_r].
      apply (R0_flag_mask_testbit f n Hf) in Hbit.
      now rewrite (six_bit_code_high_bits code n Hcode Hbit). }
    now rewrite Hclear, Z.lor_0_r.
Qed.

End Header.

(** ** The constants evaluated *)

Example WM8960_R0_IPVU_16_bit : WM8960_R0_IPVU 16 = 0x100.
Proof. reflexivity. Qed.

Example WM8960_R0_LINMUTE_32_bit : WM8960_R0_LINMUTE 32 = 0x080.
Proof. reflexivity. Qed.

Example WM8960_R0_LIZC_64_bit : WM8960_R0_LIZC 64 = 0x040.
Proof. reflexivity. Qed.

(** The width matters: were [unsigned int] 8 bits wide, which ISO C
    rules out, [1u << 8] would wrap to 0. *)
Example WM8960_R0_IPVU_8_bit_wraps : WM8960_R0_IPVU 8 = 0.
Proof. reflexivity. Qed.

(** [~WM8960_R0_LINVOL_MASK] on 16 and on 32 bits. *)
Example lnot_LINVOL_MASK_16_bit : UInt.lnot 16 WM8960_R0_LINVOL_MASK = 0xFFC0.
Proof. reflexivity. Qed.

Example lnot_LINVOL_MASK_32_bit : UInt.lnot 32 WM8960_R0_LINVOL_MASK = 0xFFFFFFC0.
Proof. reflexivity. Qed.

(** A code of seven bits does not fit: the test of the mask sees it. *)
Example LINVOL_outside_mask_0x40 : LINVOL_outside_mask 32 0x40 = 0x40.
Proof. reflexivity. Qed.

Example LINVOL_outside_mask_0DB : LINVOL_outside_mask 32 WM8960_R0_LINVOL_0DB = 0.
Proof. reflexivity. Qed.

(** A gain code OR-ed over a field that is not clear is not read back. *)
Example R0_put_LINVOL_over_set_bits :
  R0_get_LINVOL (R0_put_LINVOL 32 0x1FF WM8960_R0_LINVOL_0DB) = 0x3F.
Proof. reflexivity. Qed.

Example R0_put_LINVOL_over_clear_bits :
  R0_put_LINVOL 32 0x180 WM8960_R0_LINVOL_0DB = 0x197.
Proof. reflexivity. Qed.

(** The lowest code, 0x00, lies 17.25 dB under the 0 dB code. *)
Example LINVOL_0dB_above_minimum : LINVOL_span_dB 0x00 WM8960_R0_LINVOL_0DB == 17.25.
Proof. reflexivity. Qed.

(** ** The properties on a target with a 32-bit [unsigned int] *)

Lemma R0_field_masks_nonzero_disjoint_at_32 :
  16 <= 32 /\ IPVU <> LINVOL /\
  (R0_field_mask 32 IPVU <> 0 /\ R0_field_mask 32 LINVOL <> 0 /\
   UInt.land (R0_field_mask 32 IPVU) (R0_field_mask 32 LINVOL) = 0).
Proof.
  split; [lia |]. split; [discriminate |].
  apply (R0_field_masks_nonzero_disjoint 32); [lia | discriminate].
Defined.

Lemma IPVU_is_bit_8_at_32 :
  16 <= 32 /\
  (WM8960_R0_IPVU 32 = Z.shiftl 1 8 /\
   WM8960_R0_IPVU 32 = 0x100 /\
   occupies_exactly_bit (WM8960_R0_IPVU 32) 8 /\
   WM8960_LEFT_RIGHT_IN_VOL_IPVU = Z.shiftl 1 8 /\
   WM8960_LEFT_RIGHT_IN_VOL_IPVU = 0x100 /\
   occupies_exactly_bit WM8960_LEFT_RIGHT_IN_VOL_IPVU 8).
Proof. split; [lia | apply (IPVU_is_bit_8 32); lia]. Defined.

Lemma LINMUTE_is_bit_7_at_32 :
  16 <= 32 /\
  (WM8960_R0_LINMUTE 32 = Z.shiftl 1 7 /\
   WM8960_R0_LINMUTE 32 = 0x080 /\
   occupies_exactly_bit (WM8960_R0_LINMUTE 32) 7 /\
   WM8960_LEFT_RIGHT_IN_VOL_INMUTE = Z.shiftl 1 7 /\
   WM8960_LEFT_RIGHT_IN_VOL_INMUTE = 0x080 /\
   occupies_exactly_bit WM8960_LEFT_RIGHT_IN_VOL_INMUTE 7).
Proof. split; [lia | apply (LINMUTE_is_bit_7 32); lia]. Defined.

Lemma LIZC_is_bit_6_at_32 :
  16 <= 32 /\
  (WM8960_R0_LIZC 32 = Z.shiftl 1 6 /\
   WM8960_R0_LIZC 32 = 0x040 /\
   occupies_exactly_bit (WM8960_R0_LIZC 32) 6 /\
   WM8960_LEFT_RIGHT_IN_VOL_IZC_ZC = Z.shiftl 1 6 /\
   WM8960_LEFT_RIGHT_IN_VOL_IZC_ZC = 0x040 /\
   occupies_exactly_bit WM8960_LEFT_RIGHT_IN_VOL_IZC_ZC 6).
Proof. split; [lia | apply (LIZC_is_bit_6 32); lia]. Defined.

Lemma R0_constants_match_documented_bits_at_32 :
  16 <= 32 /\
  (WM8960_R0_ADDR = 0x00 /\
   WM8960_R0_ADDR = R0Doc.address /\
   (forall f : R0_field, R0_field_mask 32 f = R0Doc.field_mask f) /\
   WM8960_R0_LINVOL_SHIFT = R0Doc.field_shift LINVOL /\
   WM8960_LEFT_RIGHT_IN_VOL_IPVU = R0Doc.field_mask IPVU /\
   WM8960_LEFT_RIGHT_IN_VOL_INMUTE = R0Doc.field_mask LINMUTE /\
   WM8960_LEFT_RIGHT_IN_VOL_IZC_ZC = R0Doc.field_mask LIZC).
Proof.
  split; [lia | apply (R0_constants_match_documented_bits 32); lia].
Defined.

Lemma LINVOL_values_fit_mask_at_32 :
  16 <= 32 /\ In WM8960_R0_LINVOL_0DB R0_LINVOL_values /\
  LINVOL_outside_mask 32 WM8960_R0_LINVOL_0DB = 0.
Proof.
  split; [lia |]. split; [simpl; left; reflexivity |].
  apply (LINVOL_values_fit_mask 32); [lia | simpl; left; reflexivity].
Defined.



Lemma naming_groups_agree_at_32 :
  16 <= 32 /\
  (WM8960_R0_IPVU 32 = WM8960_LEFT_RIGHT_IN_VOL_IPVU /\
   WM8960_R0_LINMUTE 32 = WM8960_LEFT_RIGHT_IN_VOL_INMUTE /\
   WM8960_R0_LIZC 32 = WM8960_LEFT_RIGHT_IN_VOL_IZC_ZC /\
   WM8960_R0_LINVOL_0DB = WM8960_LEFT_RIGHT_IN_VOL_INVOL_0dB /\
   WM8960_R0_LINVOL_MAX_30DB = WM8960_LEFT_RIGHT_IN_VOL_INVOL_30dB).
Proof. split; [lia | apply (naming_groups_agree 32); lia]. Defined.

Lemma LINVOL_mask_test_accepts_up_to_max_at_32 :
  16 <= 32 /\ 0 <= 0x40 < 2 ^ 32 /\
  (LINVOL_outside_mask 32 0x40 = 0 <-> 0x40 <= WM8960_R0_LINVOL_MAX_30DB).
Proof.
  split; [lia |]. split; [lia |].
  apply (LINVOL_mask_test_accepts_up_to_max 32); lia.
Defined.

Lemma R0_put_get_LINVOL_at_32 :
  16 <= 32 /\
  UInt.land 0x180 WM8960_R0_LINVOL_MASK = 0 /\
  0 <= 0x17 <= WM8960_R0_LINVOL_MAX_30DB /\
  (R0_get_LINVOL (R0_put_LINVOL 32 0x180 0x17) = 0x17 /\
   (forall f : R0_field, f <> LINVOL ->
      UInt.land (R0_put_LINVOL 32 0x180 0x17) (R0_field_mask 32 f) =
      UInt.land 0x180 (R0_field_mask 32 f))).
Proof.
  split; [lia |]. split; [reflexivity |].
  split; [unfold WM8960_R0_LINVOL_MAX_30DB; lia |].
  apply (R0_put_get_LINVOL 32);
    [lia | reflexivity | unfold WM8960_R0_LINVOL_MAX_30DB; lia].
Defined.

Lemma R0_fields_tile_nine_bits_at_32 :
  16 <= 32 /\
  (R0_all_fields_mask 32 = 0x1FF /\
   (forall i : Z,
       (exists f : R0_field, Z.testbit (R0_field_mask 32 f) i = true) <->
       0 <= i <= 8) /\
   (forall (i : Z) (f g : R0_field),
       Z.testbit (R0_field_mask 32 f) i = true ->
       Z.testbit (R0_field_mask 32 g) i = true -> f = g)).
Proof. split; [lia | apply (R0_fields_tile_nine_bits 32); lia]. Defined.
